(** * Ekaksh: credential flow, session flag and query routing of [app/app.py]

    The Streamlit script [app.py] is re-run from top to bottom on every user
    interaction.  A run reads the widget values, talks to three
    collaborators (the [users] table behind SQLAlchemy, [bcrypt], and the
    LangChain agent) and writes messages with [st.error], [st.success],
    [st.warning] and [st.write].

    The embedding is a state-and-exception monad over a [world] holding what
    survives a run (the [users] table, [st.session_state], the operating
    system's random source and the number of agent calls made so far); every
    run also yields the ordered list of calls it made on its collaborators
    and of the messages it displayed.

    Python [str] values are represented by their UTF-8 text ([string]), so
    that [s.encode('utf-8')] is the list of bytes of [s].  The purely
    decorative [st.markdown] calls (style sheet, titles, container) are left
    out; the read of [st.session_state["username"]] in the welcome title is
    kept, because it can raise.  [bcrypt.hashpw] and [bcrypt.checkpw] can
    raise [ValueError] (a password the library refuses, a stored value that
    is not a hash); the script catches nothing, so the exception leaves it.
    What Streamlit's script runner does with an exception that leaves the
    script is [streamlit_run]. *)

From stdpp Require Import base strings gmap list.
From Stdlib Require Import Ascii String ZArith Lia.

Local Open Scope string_scope.
Local Open Scope Z_scope.
Local Open Scope list_scope.
Local Open Scope stdpp_scope.

(** ** Data model *)

Definition bytes := list Byte.byte.

(** [password.encode('utf-8')] *)
Definition encode_utf8 (s : string) : bytes := list_byte_of_string s.

(** [class User(Base)]: one row of the table [users]. *)
Module User.
Record t := mk {
  id : Z;
  username : string;
  password : bytes
}.
End User.

(** Values kept in [st.session_state] by this script. *)
Inductive pyval :=
| VBool (b : bool)
| VStr (s : string).

(** Python truthiness, as used by [not st.session_state["logged_in"]]. *)
Definition truthy (v : pyval) : bool :=
  match v with
  | VBool b => b
  | VStr s => negb (String.eqb s "")
  end.

(** Exceptions that can leave the script. *)
Inductive pyexn :=
| KeyError (key : string)
| IntegrityError
| ValueError
| AgentException (err : string).

(** What [assistant_agent.run] does with a prompt. *)
Inductive agent_reply :=
| Answer (text : string)
| AgentFails (err : string).

(** Calls on collaborators and displayed messages, in program order.
    [StException] is the box in which Streamlit shows an exception that
    left the script. *)
Inductive event :=
| StError (msg : string)
| StSuccess (msg : string)
| StWarning (msg : string)
| StWrite (msg : string)
| StException (e : pyexn)
| DbQuery (name : string)
| DbCommit (row : User.t)
| BcryptGensalt
| BcryptHashpw (pw salt : bytes)
| BcryptCheckpw (pw hashed : bytes)
| AgentRun (prompt : string).

Record world := mkWorld {
  users : list User.t;
  session_state : gmap string pyval;
  urandom : N;
  agent_calls : nat
}.

Definition set_users (f : list User.t → list User.t) (w : world) : world :=
  mkWorld (f (users w)) (session_state w) (urandom w) (agent_calls w).

Definition set_session_state
    (f : gmap string pyval → gmap string pyval) (w : world) : world :=
  mkWorld (users w) (f (session_state w)) (urandom w) (agent_calls w).

Definition set_urandom (n : N) (w : world) : world :=
  mkWorld (users w) (session_state w) n (agent_calls w).

Definition set_agent_calls (n : nat) (w : world) : world :=
  mkWorld (users w) (session_state w) (urandom w) n.

(** ** The monad of a script run *)

Inductive result (A : Type) :=
| Ok (a : A)
| Raise (e : pyexn).
Arguments Ok {A} a.
Arguments Raise {A} e.

Definition M (A : Type) : Type := world → result A * world * list event.

Definition ret {A} (a : A) : M A := λ w, (Ok a, w, []).

Definition bind {A B} (m : M A) (k : A → M B) : M B := λ w,
  match m w with
  | (Ok a, w1, t1) =>
      match k a w1 with
      | (r, w2, t2) => (r, w2, t1 ++ t2)
      end
  | (Raise e, w1, t1) => (Raise e, w1, t1)
  end.

Notation "'do' x <- m ; k" := (bind m (λ x, k))
  (at level 10, x name, m at level 100, k at level 200).
Notation "m1 ;; m2" := (bind m1 (λ _, m2))
  (at level 100, m2 at level 200, right associativity).

Definition emit (e : event) : M unit := λ w, (Ok tt, w, [e]).

Definition outcome {A} (m : M A) (w : world) : result A := (m w).1.1.
Definition exec {A} (m : M A) (w : world) : world := (m w).1.2.
Definition events {A} (m : M A) (w : world) : list event := (m w).2.

(** ** Streamlit *)

Definition st_error (msg : string) : M unit := emit (StError msg).
Definition st_success (msg : string) : M unit := emit (StSuccess msg).
Definition st_warning (msg : string) : M unit := emit (StWarning msg).
Definition st_write (msg : string) : M unit := emit (StWrite msg).

(** [st.session_state[key]] *)
Definition session_get (key : string) : M pyval := λ w,
  match session_state w !! key with
  | Some v => (Ok v, w, [])
  | None => (Raise (KeyError key), w, [])
  end.

(** [st.session_state[key] = v] *)
Definition session_set (key : string) (v : pyval) : M unit := λ w,
  (Ok tt, set_session_state <[key := v]> w, []).

(** [key in st.session_state] *)
Definition session_has (key : string) : M bool := λ w,
  (Ok (bool_decide (is_Some (session_state w !! key))), w, []).

(** ** The [users] table *)

Definition find_user (name : string) (rows : list User.t) : option User.t :=
  List.find (λ r, String.eqb (User.username r) name) rows.

(** [session.query(User).filter_by(username=username).first()] *)
Definition query_first (name : string) : M (option User.t) := λ w,
  (Ok (find_user name (users w)), w, [DbQuery name]).

(** The integer primary key is assigned by the store. *)
Definition next_id (rows : list User.t) : Z :=
  1 + foldr (λ r acc, Z.max (User.id r) acc) 0 rows.

(** [session.add(User(username=.., password=..)); session.commit()].
    The column [username] is declared [unique=True]. *)
Definition add_commit (name : string) (hashed : bytes) : M unit := λ w,
  match find_user name (users w) with
  | Some _ => (Raise IntegrityError, w, [])
  | None =>
      let row := User.mk (next_id (users w)) name hashed in
      (Ok tt, set_users (λ rows, rows ++ [row]) w, [DbCommit row])
  end.

(** ** Substring test and the widgets of one run *)

(** [needle in hay] on Python strings. *)
Fixpoint contains (needle hay : string) : bool :=
  String.prefix needle hay
  || match hay with
     | EmptyString => false
     | String _ rest => contains needle rest
     end.

Inductive sidebar_choice := Login | Register.

Record widgets := mkWidgets {
  choice : sidebar_choice;
  username_in : string;
  password_in : string;
  confirm_in : string;
  btn_register : bool;
  btn_login : bool;
  query_in : string;
  btn_get_answer : bool;
  btn_veriface : bool
}.

(** ** Executable stand-ins for the collaborators

    Small concrete models of [bcrypt], of the agent and of [str.lower],
    used to run the script on concrete inputs. *)

Definition demo_gensalt (n : N) : bytes * N :=
  ([Byte.x24; default Byte.x00 (Byte.of_N (n mod 256))], (n + 1)%N).

(** Like bcrypt 5, the stand-in refuses a password of more than 72 bytes,
    and a stored value that does not start like a hash. *)
Definition demo_hashpw (pw salt : bytes) : option bytes :=
  if (72 <? List.length pw)%nat then None else Some (salt ++ rev pw).

Definition demo_checkpw (pw hashed : bytes) : option bool :=
  if (72 <? List.length pw)%nat then None
  else
    match hashed with
    | Byte.x24 :: _ =>
        Some (String.eqb (string_of_list_byte (drop 2 hashed))
                         (string_of_list_byte (rev pw)))
    | _ => None
    end.

(** A password of 73 bytes. *)
Definition long_password : string :=
  "aaaaaaaaaaaaaaaaaaaaaaaaaaaaaaaaaaaaaaaaaaaaaaaaaaaaaaaaaaaaaaaaaaaaaaaaa".

Definition echo_agent (n : nat) (prompt : string) : agent_reply :=
  Answer ("echo: " +:+ prompt).

Definition down_agent (n : nat) (prompt : string) : agent_reply :=
  AgentFails "provider unreachable".

Definition ascii_lower_char (c : ascii) : ascii :=
  let n := N_of_ascii c in
  if ((65 <=? n) && (n <=? 90))%N then ascii_of_N (n + 32) else c.

Fixpoint ascii_lower (s : string) : string :=
  match s with
  | EmptyString => EmptyString
  | String c rest => String (ascii_lower_char c) (ascii_lower rest)
  end.

(** Worlds used in the examples: the table after "alice" registered with
    the password "secret" from [initial_world 7], before and after she
    logged in. *)
Definition alice_row : User.t :=
  User.mk 1 "alice" ((demo_gensalt 7).1 ++ rev (encode_utf8 "secret")).

Definition alice_registered : world :=
  mkWorld [alice_row] (<["logged_in" := VBool false]> ∅) 8 0.

Definition alice_logged_in : world :=
  mkWorld [alice_row]
    (<["username" := VStr "alice"]> (<["logged_in" := VBool true]> ∅)) 8 0.

(** A session whose flag is set although it holds no username. *)
Definition orphan_session : world :=
  mkWorld [] (<["logged_in" := VBool true]> ∅) 0 0.

(** A session that has started and is not logged in, on an empty table. *)
Definition fresh_session (seed : N) : world :=
  mkWorld [] (<["logged_in" := VBool false]> ∅) seed 0.

Definition alice_register_form : widgets :=
  mkWidgets Register "alice" "secret" "secret" true false "" false false.

Definition alice_login_form : widgets :=
  mkWidgets Login "alice" "secret" "" false true "" false false.

Definition alice_query_form : widgets :=
  mkWidgets Login "" "" "" false false "write a function to sort a list"
    true false.

(** ** Vocabulary of the specification *)

(** [needle] occurs in [hay] as a contiguous substring. *)
Definition is_substring (needle hay : string) : Prop :=
  ∃ l r, hay = l +:+ needle +:+ r.

(** Space, tab, line feed, vertical tab, form feed, carriage return. *)
Definition is_space (c : ascii) : bool :=
  let n := N_of_ascii c in
  ((n =? 32) || ((9 <=? n) && (n <=? 13)))%N.

(** A blank query: empty, or made of white space only. *)
Fixpoint is_blank (s : string) : bool :=
  match s with
  | EmptyString => true
  | String c rest => is_space c && is_blank rest
  end.

(** The messages a run displays, among all its events. *)
Definition is_message (e : event) : bool :=
  match e with
  | StError _ | StSuccess _ | StWarning _ | StWrite _ | StException _ => true
  | _ => false
  end.

Definition displayed (t : list event) : list event := List.filter is_message t.

(** The prompts handed to the agent during a run. *)
Fixpoint agent_prompts (t : list event) : list string :=
  match t with
  | [] => []
  | AgentRun prompt :: rest => prompt :: agent_prompts rest
  | _ :: rest => agent_prompts rest
  end.

(** Streamlit's script runner.  It executes the script; an exception that
    leaves the script is caught by the runner and shown on the page, and
    the session goes on being served from the state the script left. *)
Definition streamlit_run (script : M unit) (w : world) : world * list event :=
  match script w with
  | (Ok _, w', t) => (w', t)
  | (Raise e, w', t) => (w', t ++ [StException e])
  end.

(** The store before any registration, in a session that has not started. *)
Definition initial_world (seed : N) : world := mkWorld [] ∅ seed 0.

(** ** The script *)

Section App.

(** The parts of the Python runtime and of the third-party packages that
    the script calls.  [bcrypt_hashpw] and [bcrypt_checkpw] give [None]
    where the library raises [ValueError]. *)
Variable bcrypt_gensalt : N → bytes * N.
Variable bcrypt_hashpw : bytes → bytes → option bytes.
Variable bcrypt_checkpw : bytes → bytes → option bool.
Variable assistant_agent_run : nat → string → agent_reply.
Variable str_lower : string → string.

Definition gensalt : M bytes := λ w,
  let drawn := bcrypt_gensalt (urandom w) in
  (Ok drawn.1, set_urandom drawn.2 w, [BcryptGensalt]).

Definition hashpw (pw salt : bytes) : M bytes := λ w,
  match bcrypt_hashpw pw salt with
  | Some hashed => (Ok hashed, w, [BcryptHashpw pw salt])
  | None => (Raise ValueError, w, [BcryptHashpw pw salt])
  end.

Definition checkpw (pw hashed : bytes) : M bool := λ w,
  match bcrypt_checkpw pw hashed with
  | Some ok => (Ok ok, w, [BcryptCheckpw pw hashed])
  | None => (Raise ValueError, w, [BcryptCheckpw pw hashed])
  end.

Definition agent_run (prompt : string) : M string := λ w,
  let w' := set_agent_calls (S (agent_calls w)) w in
  match assistant_agent_run (agent_calls w) prompt with
  | Answer text => (Ok text, w', [AgentRun prompt])
  | AgentFails err => (Raise (AgentException err), w', [AgentRun prompt])
  end.

Definition hash_password (password : string) : M bytes :=
  do salt <- gensalt;
  hashpw (encode_utf8 password) salt.

Definition check_password (hashed_password : bytes) (password : string)
    : M bool :=
  checkpw (encode_utf8 password) hashed_password.

Definition register_user
    (username password confirm_password : string) (button : bool)
    : M unit :=
  if button then
    if negb (String.eqb password confirm_password) then
      st_error "Passwords do not match!"
    else
      do existing <- query_first username;
      match existing with
      | Some _ =>
          st_error "Username already exists! Please choose another one."
      | None =>
          do hashed_password <- hash_password password;
          add_commit username hashed_password ;;
          st_success "Registration successful! Please log in."
      end
  else ret tt.

Definition login_user (username password : string) (button : bool)
    : M unit :=
  if button then
    do user <- query_first username;
    do ok <- match user with
             | Some u => check_password (User.password u) password
             | None => ret false
             end;
    if ok then
      st_success "Login successful!" ;;
      session_set "logged_in" (VBool true) ;;
      session_set "username" (VStr username)
    else
      st_error "Invalid username or password"
  else ret tt.

Definition assistant_interface (query : string)
    (get_answer veriface : bool) : M unit :=
  session_get "username" ;;
  (if get_answer then
     if negb (String.eqb query "") then
       do response <-
         (if contains "code" (str_lower query)
             || contains "function" (str_lower query)
             || contains "script" (str_lower query)
          then agent_run ("Generate code for the following task: " +:+ query)
          else agent_run ("Solve this math problem: " +:+ query));
       st_write "### Response:" ;;
       st_success response
     else
       st_warning "Please enter a valid query"
   else ret tt) ;;
  if veriface then
    st_write "[Go to Veriface](https://veriface.streamlit.app)"
  else ret tt.

(** [if "logged_in" not in st.session_state: ...] *)
Definition start : M unit :=
  do present <- session_has "logged_in";
  if negb present then session_set "logged_in" (VBool false) else ret tt.

Definition app (ui : widgets) : M unit :=
  start ;;
  do logged_in <- session_get "logged_in";
  if negb (truthy logged_in) then
    match choice ui with
    | Login => login_user (username_in ui) (password_in ui) (btn_login ui)
    | Register =>
        register_user (username_in ui) (password_in ui) (confirm_in ui)
          (btn_register ui)
    end
  else
    assistant_interface (query_in ui) (btn_get_answer ui) (btn_veriface ui).

(** ** Runs of the application

    Between two runs of the script the browser session may end, which
    discards [st.session_state] and keeps the table. *)

Inductive action :=
| Rerun (ui : widgets)
| NewSession.

Definition step (a : action) (w : world) : world :=
  match a with
  | Rerun ui => exec (app ui) w
  | NewSession => set_session_state (λ _, ∅) w
  end.

Fixpoint run_all (acts : list action) (w : world) : world :=
  match acts with
  | [] => w
  | a :: rest => run_all rest (step a w)
  end.

(** A [Rerun] in which the registration form is submitted for [name] with
    the password [pw], typed twice. *)
Definition registers (name pw : string) (a : action) : Prop :=
  match a with
  | Rerun ui =>
      choice ui = Register ∧ btn_register ui = true ∧
      username_in ui = name ∧ password_in ui = pw ∧ confirm_in ui = pw
  | NewSession => False
  end.

(** What the library documents: a hash verifies against its own password. *)
Definition bcrypt_sound : Prop :=
  ∀ pw n hashed,
    bcrypt_hashpw pw (bcrypt_gensalt n).1 = Some hashed →
    bcrypt_checkpw pw hashed = Some true.

(** The hash of a password is not the password. *)
Definition bcrypt_not_plain : Prop :=
  ∀ pw n hashed,
    bcrypt_hashpw pw (bcrypt_gensalt n).1 = Some hashed → hashed ≠ pw.

(** The query asks for code: its lowercased text contains one of the three
    keywords. *)
Definition is_code_query (query : string) : Prop :=
  is_substring "code" (str_lower query)
  ∨ is_substring "function" (str_lower query)
  ∨ is_substring "script" (str_lower query).

(** The prompt [assistant_interface] builds for a query. *)
Definition forwarded_prompt (query : string) : string :=
  if contains "code" (str_lower query)
     || contains "function" (str_lower query)
     || contains "script" (str_lower query)
  then "Generate code for the following task: " +:+ query
  else "Solve this math problem: " +:+ query.

Definition veriface_events (veriface : bool) : list event :=
  if veriface then [StWrite "[Go to Veriface](https://veriface.streamlit.app)"]
  else [].

(** The world and the row left by a registration that goes through,
    [hashed] being the hash bcrypt returned. *)
Definition registered_row (w : world) (name : string) (hashed : bytes)
    : User.t :=
  User.mk (next_id (users w)) name hashed.

Definition registered_world (w : world) (name : string) (hashed : bytes)
    : world :=
  mkWorld (users w ++ [registered_row w name hashed]) (session_state w)
    (bcrypt_gensalt (urandom w)).2 (agent_calls w).

(** Every stored row was written by a submission of the registration form
    among [acts], and holds a bcrypt hash of the password typed there,
    which differs from the bytes of that password. *)
Definition stored_hashed (acts : list action) (w : world) : Prop :=
  ∀ r, r ∈ users w →
    ∃ pw a n,
      a ∈ acts
      ∧ registers (User.username r) pw a
      ∧ bcrypt_hashpw (encode_utf8 pw) (bcrypt_gensalt n).1 =
          Some (User.password r)
      ∧ User.password r ≠ encode_utf8 pw.

(** The session is marked as logged in: the test of the page switch. *)
Definition authenticated (w : world) : bool :=
  match session_state w !! "logged_in" with
  | Some v => truthy v
  | None => false
  end.

(** A session marked as logged in names a user of the table. *)
Definition session_consistent (w : world) : Prop :=
  authenticated w = true →
  ∃ name r,
    session_state w !! "username" = Some (VStr name)
    ∧ find_user name (users w) = Some r.

(** The page [app] shows once the flag is initialised. *)
Definition page (ui : widgets) (w : world) : M unit :=
  if authenticated w then
    assistant_interface (query_in ui) (btn_get_answer ui) (btn_veriface ui)
  else
    match choice ui with
    | Login => login_user (username_in ui) (password_in ui) (btn_login ui)
    | Register =>
        register_user (username_in ui) (password_in ui) (confirm_in ui)
          (btn_register ui)
    end.

(** ** The [users] table: lookups *)

Lemma find_user_name name rows r :
  find_user name rows = Some r → User.username r = name.
Proof.
  unfold find_user. intros Hfind.
  apply List.find_some in Hfind as [_ Heq].
  by apply String.eqb_eq.
Qed.

Lemma find_user_app_fresh name rows row :
  find_user name rows = None →
  User.username row = name →
  find_user name (rows ++ [row]) = Some row.
Proof.
  unfold find_user. intros Hnone Hname.
  induction rows as [|r rows IH]; simpl in *.
  - by rewrite Hname, String.eqb_refl.
  - destruct (String.eqb (User.username r) name); [done | by apply IH].
Qed.

Lemma find_user_app_taken name rows row r :
  find_user name rows = Some r →
  find_user name (rows ++ [row]) = Some r.
Proof.
  unfold find_user.
  induction rows as [|r0 rows IH]; simpl; [done |].
  destruct (String.eqb (User.username r0) name); [done | apply IH].
Qed.

(** ** [register_user], case by case *)

Lemma hash_password_spec w pw :
  hash_password pw w =
    let salt := (bcrypt_gensalt (urandom w)).1 in
    let w' := set_urandom (bcrypt_gensalt (urandom w)).2 w in
    match bcrypt_hashpw (encode_utf8 pw) salt with
    | Some hashed =>
        (Ok hashed, w', [BcryptGensalt; BcryptHashpw (encode_utf8 pw) salt])
    | None =>
        (Raise ValueError, w',
         [BcryptGensalt; BcryptHashpw (encode_utf8 pw) salt])
    end.
Proof.
  unfold hash_password, bind, gensalt, hashpw. cbn [fst snd].
  by destruct (bcrypt_hashpw _ _).
Qed.

Lemma register_user_fresh w name pw hashed :
  find_user name (users w) = None →
  bcrypt_hashpw (encode_utf8 pw) (bcrypt_gensalt (urandom w)).1 =
    Some hashed →
  register_user name pw pw true w =
    (Ok tt, registered_world w name hashed,
     [DbQuery name; BcryptGensalt;
      BcryptHashpw (encode_utf8 pw) (bcrypt_gensalt (urandom w)).1;
      DbCommit (registered_row w name hashed);
      StSuccess "Registration successful! Please log in."]).
Proof.
  intros Hnone Hhash. unfold register_user. rewrite String.eqb_refl. simpl.
  unfold bind, query_first. rewrite Hnone, hash_password_spec.
  cbv zeta. rewrite Hhash.
  unfold add_commit. simpl. by rewrite Hnone.
Qed.

(** bcrypt refuses the password: the salt is drawn, nothing is stored. *)
Lemma register_user_refused w name pw :
  find_user name (users w) = None →
  bcrypt_hashpw (encode_utf8 pw) (bcrypt_gensalt (urandom w)).1 = None →
  register_user name pw pw true w =
    (Raise ValueError, set_urandom (bcrypt_gensalt (urandom w)).2 w,
     [DbQuery name; BcryptGensalt;
      BcryptHashpw (encode_utf8 pw) (bcrypt_gensalt (urandom w)).1]).
Proof.
  intros Hnone Hhash. unfold register_user. rewrite String.eqb_refl. simpl.
  unfold bind, query_first. rewrite Hnone, hash_password_spec.
  cbv zeta. by rewrite Hhash.
Qed.

Lemma register_user_taken w name pw r :
  find_user name (users w) = Some r →
  register_user name pw pw true w =
    (Ok tt, w,
     [DbQuery name;
      StError "Username already exists! Please choose another one."]).
Proof.
  intros Hsome. unfold register_user. rewrite String.eqb_refl. simpl.
  unfold bind, query_first. by rewrite Hsome.
Qed.

Lemma register_user_leaves_name w name pw :
  outcome (register_user name pw pw true) w = Ok tt →
  is_Some (find_user name (users (exec (register_user name pw pw true) w))).
Proof.
  unfold outcome, exec.
  destruct (find_user name (users w)) as [r|] eqn:Hfind.
  - rewrite (register_user_taken _ _ _ _ Hfind). simpl. by rewrite Hfind.
  - destruct (bcrypt_hashpw (encode_utf8 pw) (bcrypt_gensalt (urandom w)).1)
      as [hashed|] eqn:Hhash.
    + rewrite (register_user_fresh _ _ _ _ Hfind Hhash). simpl.
      by erewrite find_user_app_fresh.
    + by rewrite (register_user_refused _ _ _ Hfind Hhash).
Qed.

(** ** Registration *)

(** C5: for every username and every two different strings [a] and [b],
    submitting the registration form with password [a] and confirmation [b]
    displays "Passwords do not match!" and nothing else happens: the table,
    the session and the random source are as before, and no collaborator is
    called. *)
Theorem register_password_mismatch w name a b :
  a ≠ b →
  register_user name a b true w =
    (Ok tt, w, [StError "Passwords do not match!"]).
Proof.
  intros Hne. unfold register_user.
  apply String.eqb_neq in Hne. by rewrite Hne.
Qed.

(** C4: once the registration form has been submitted for a username with a
    password typed twice, and that run was not cut short by bcrypt,
    submitting it again for the same username, with any password typed
    twice, displays "Username already exists! Please choose another one.".
    The run only looks the name up: no salt is drawn, nothing is hashed, and
    the world (in particular the table) is left as it was. *)
Theorem register_twice_duplicate w name pw1 pw2 :
  outcome (register_user name pw1 pw1 true) w = Ok tt →
  register_user name pw2 pw2 true (exec (register_user name pw1 pw1 true) w) =
    (Ok tt, exec (register_user name pw1 pw1 true) w,
     [DbQuery name;
      StError "Username already exists! Please choose another one."]).
Proof.
  intros Hfirst.
  destruct (register_user_leaves_name w name pw1 Hfirst) as [r Hr].
  by apply register_user_taken with r.
Qed.

(** ** Login *)

Lemma login_user_absent w name pw :
  find_user name (users w) = None →
  login_user name pw true w =
    (Ok tt, w, [DbQuery name; StError "Invalid username or password"]).
Proof.
  intros Hnone. unfold login_user, bind, query_first. by rewrite Hnone.
Qed.

Lemma login_user_present w name pw r :
  find_user name (users w) = Some r →
  login_user name pw true w =
    match bcrypt_checkpw (encode_utf8 pw) (User.password r) with
    | Some true =>
        (Ok tt,
         set_session_state
           (λ s, <["username" := VStr name]>
                   (<["logged_in" := VBool true]> s)) w,
         [DbQuery name; BcryptCheckpw (encode_utf8 pw) (User.password r);
          StSuccess "Login successful!"])
    | Some false =>
        (Ok tt, w,
         [DbQuery name; BcryptCheckpw (encode_utf8 pw) (User.password r);
          StError "Invalid username or password"])
    | None =>
        (Raise ValueError, w,
         [DbQuery name; BcryptCheckpw (encode_utf8 pw) (User.password r)])
    end.
Proof.
  intros Hsome. unfold login_user, bind, query_first. rewrite Hsome. simpl.
  unfold check_password, checkpw.
  by destruct (bcrypt_checkpw _ _) as [[|]|].
Qed.

(** C1: if [name] is not in the table, bcrypt hashes [pw] (the pair is
    valid) and bcrypt verifies what it hashed, then registering [name] with
    [pw] typed twice succeeds, and a login with the same credentials right
    after it succeeds too: it displays "Login successful!" and records
    [name] as the authenticated user of the session. *)
Theorem register_then_login w name pw hashed :
  bcrypt_sound →
  find_user name (users w) = None →
  bcrypt_hashpw (encode_utf8 pw) (bcrypt_gensalt (urandom w)).1 =
    Some hashed →
  let w1 := exec (register_user name pw pw true) w in
  outcome (register_user name pw pw true) w = Ok tt
  ∧ displayed (events (register_user name pw pw true) w) =
      [StSuccess "Registration successful! Please log in."]
  ∧ outcome (login_user name pw true) w1 = Ok tt
  ∧ displayed (events (login_user name pw true) w1) =
      [StSuccess "Login successful!"]
  ∧ session_state (exec (login_user name pw true) w1) =
      <["username" := VStr name]>
        (<["logged_in" := VBool true]> (session_state w)).
Proof.
  intros Hsound Hnone Hhash w1. subst w1.
  unfold outcome, exec, events.
  rewrite (register_user_fresh _ _ _ _ Hnone Hhash). cbn [fst snd].
  rewrite (login_user_present _ _ _ (registered_row w name hashed)).
  2:{ by apply find_user_app_fresh. }
  cbn [registered_row User.password]. by rewrite (Hsound _ _ _ Hhash).
Qed.

(** Where bcrypt returns [False], a login for a name that is not in the
    table and a login for a name that is there end the same way: the run
    completes, the world is unchanged and the only thing displayed is
    "Invalid username or password". *)
Lemma login_failure_same_message w absent present pw1 pw2 r :
  find_user absent (users w) = None →
  find_user present (users w) = Some r →
  bcrypt_checkpw (encode_utf8 pw2) (User.password r) = Some false →
  (login_user absent pw1 true w).1 = (Ok tt, w)
  ∧ (login_user present pw2 true w).1 = (Ok tt, w)
  ∧ displayed (events (login_user absent pw1 true) w) =
      [StError "Invalid username or password"]
  ∧ displayed (events (login_user present pw2 true) w) =
      [StError "Invalid username or password"].
Proof.
  intros Habsent Hpresent Hwrong. unfold events.
  rewrite (login_user_absent _ _ _ Habsent).
  rewrite (login_user_present _ _ _ _ Hpresent), Hwrong.
  done.
Qed.

(** Where bcrypt refuses the password, the two logins differ: for a name
    that is not in the table the page shows "Invalid username or password";
    for a name that is there [ValueError] leaves the script and Streamlit
    shows the exception. *)
Lemma login_refused_password_differs w absent present pw r :
  find_user absent (users w) = None →
  find_user present (users w) = Some r →
  bcrypt_checkpw (encode_utf8 pw) (User.password r) = None →
  streamlit_run (login_user absent pw true) w =
    (w, [DbQuery absent; StError "Invalid username or password"])
  ∧ streamlit_run (login_user present pw true) w =
      (w, [DbQuery present;
           BcryptCheckpw (encode_utf8 pw) (User.password r);
           StException ValueError]).
Proof.
  intros Habsent Hpresent Hrefused. unfold streamlit_run.
  rewrite (login_user_absent _ _ _ Habsent).
  by rewrite (login_user_present _ _ _ _ Hpresent), Hrefused.
Qed.

(** ** The substring test *)

Lemma append_cons c (s t : string) : String c s +:+ t = String c (s +:+ t).
Proof. reflexivity. Qed.

Lemma prefix_spec needle hay :
  String.prefix needle hay = true ↔ ∃ r, hay = needle +:+ r.
Proof.
  revert hay. induction needle as [|a needle IH]; intros hay; simpl.
  - destruct hay; split; eauto.
  - destruct hay as [|b hay]; simpl.
    + split; [done | by intros [r Hr]].
    + destruct (ascii_dec a b) as [->|Hne].
      * rewrite IH. split; intros [r Hr]; exists r;
          rewrite append_cons in *; congruence.
      * split; [done | intros [r Hr]; rewrite append_cons in Hr; congruence].
Qed.

Lemma contains_nil needle :
  contains needle "" = String.prefix needle "" || false.
Proof. reflexivity. Qed.

Lemma contains_cons needle c hay :
  contains needle (String c hay) =
    String.prefix needle (String c hay) || contains needle hay.
Proof. reflexivity. Qed.

Lemma contains_spec needle hay :
  contains needle hay = true ↔ is_substring needle hay.
Proof.
  unfold is_substring.
  induction hay as [|c hay IH];
    [rewrite contains_nil | rewrite contains_cons]; rewrite orb_true_iff.
  - rewrite prefix_spec. split.
    + intros [[r Hr]|?]; [|done]. by exists "", r.
    + intros (l & r & Heq). left. destruct l; [by exists r | done].
  - rewrite prefix_spec, IH. split.
    + intros [[r Hr]|(l & r & Hr)].
      * by exists "", r.
      * exists (String c l), r. by rewrite append_cons, Hr.
    + intros (l & r & Heq). destruct l as [|c' l].
      * left. by exists r.
      * right. exists l, r. rewrite append_cons in Heq. congruence.
Qed.

Lemma code_test_spec query :
  contains "code" (str_lower query)
  || contains "function" (str_lower query)
  || contains "script" (str_lower query) = true
  ↔ is_code_query query.
Proof.
  unfold is_code_query. rewrite !orb_true_iff, !contains_spec. tauto.
Qed.

Lemma forwarded_prompt_code query :
  is_code_query query →
  forwarded_prompt query = "Generate code for the following task: " +:+ query.
Proof.
  intros Hcode. apply code_test_spec in Hcode.
  unfold forwarded_prompt. by rewrite Hcode.
Qed.

Lemma forwarded_prompt_math query :
  ¬ is_code_query query →
  forwarded_prompt query = "Solve this math problem: " +:+ query.
Proof.
  intros Hmath. unfold forwarded_prompt.
  destruct (_ || _ || _) eqn:Htest; [|done].
  by apply code_test_spec in Htest.
Qed.

(** ** The assistant page *)

Lemma assistant_interface_query w query v veriface :
  query ≠ "" →
  session_state w !! "username" = Some v →
  assistant_interface query true veriface w =
    match assistant_agent_run (agent_calls w) (forwarded_prompt query) with
    | Answer text =>
        (Ok tt, set_agent_calls (S (agent_calls w)) w,
         [AgentRun (forwarded_prompt query); StWrite "### Response:";
          StSuccess text] ++ veriface_events veriface)
    | AgentFails err =>
        (Raise (AgentException err), set_agent_calls (S (agent_calls w)) w,
         [AgentRun (forwarded_prompt query)])
    end.
Proof.
  intros Hne Hname. apply String.eqb_neq in Hne.
  unfold assistant_interface, bind, session_get. rewrite Hname, Hne. simpl.
  unfold forwarded_prompt.
  destruct (_ || _ || _); unfold agent_run;
    destruct (assistant_agent_run _ _); by destruct veriface.
Qed.

Lemma assistant_interface_empty w v veriface :
  session_state w !! "username" = Some v →
  assistant_interface "" true veriface w =
    (Ok tt, w,
     StWarning "Please enter a valid query" :: veriface_events veriface).
Proof.
  intros Hname. unfold assistant_interface, bind, session_get.
  rewrite Hname. by destruct veriface.
Qed.

Lemma assistant_interface_prompts w query v veriface :
  query ≠ "" →
  session_state w !! "username" = Some v →
  agent_prompts (events (assistant_interface query true veriface) w) =
    [forwarded_prompt query].
Proof.
  intros Hne Hname. unfold events.
  rewrite (assistant_interface_query _ _ _ _ Hne Hname).
  destruct (assistant_agent_run _ _); by destruct veriface.
Qed.

(** C3: for a logged-in session and a non-empty query, exactly one prompt
    is handed to the agent.  It is "Generate code for the following task: "
    followed by the query when the lowercased query contains "code",
    "function" or "script" as a substring, and "Solve this math problem: "
    followed by the query otherwise; the query is appended as typed. *)
Theorem route_classification w query v veriface :
  query ≠ "" →
  session_state w !! "username" = Some v →
  (is_code_query query →
   agent_prompts (events (assistant_interface query true veriface) w) =
     ["Generate code for the following task: " +:+ query])
  ∧ (¬ is_code_query query →
     agent_prompts (events (assistant_interface query true veriface) w) =
       ["Solve this math problem: " +:+ query]).
Proof.
  intros Hne Hname.
  rewrite (assistant_interface_prompts _ _ _ _ Hne Hname).
  split; intros Hclass.
  - by rewrite forwarded_prompt_code.
  - by rewrite forwarded_prompt_math.
Qed.

(** C6 (amended): in a logged-in session, submitting the empty query
    displays "Please enter a valid query" without calling the agent and
    without changing the world; every other query, white space included, is
    classified and handed to the agent. *)
Theorem empty_query_rejected w v veriface :
  session_state w !! "username" = Some v →
  assistant_interface "" true veriface w =
    (Ok tt, w,
     StWarning "Please enter a valid query" :: veriface_events veriface)
  ∧ ∀ query, query ≠ "" →
      agent_prompts (events (assistant_interface query true veriface) w) =
        [forwarded_prompt query].
Proof.
  intros Hname. split.
  - by apply assistant_interface_empty with v.
  - intros query Hne. by apply assistant_interface_prompts with v.
Qed.

(** In a logged-in session, when the agent fails on the prompt built for a
    non-empty query, [assistant_interface] has called it once, displays
    nothing itself, and ends with the agent's exception, which leaves the
    script as it was raised. *)
Lemma agent_failure_propagates w query v veriface err :
  query ≠ "" →
  session_state w !! "username" = Some v →
  assistant_agent_run (agent_calls w) (forwarded_prompt query) =
    AgentFails err →
  assistant_interface query true veriface w =
    (Raise (AgentException err), set_agent_calls (S (agent_calls w)) w,
     [AgentRun (forwarded_prompt query)]).
Proof.
  intros Hne Hname Hfails.
  by rewrite (assistant_interface_query _ _ _ _ Hne Hname), Hfails.
Qed.

(** C7: in a logged-in session, when the agent fails on the prompt built
    for a non-empty query, the failure is propagated: [assistant_interface]
    ends with the agent's exception, having handed the agent that one prompt
    and no other (no retry, no fallback answer).  The exception leaves the
    script, Streamlit shows it on the page, and the session goes on from a
    world in which only the count of agent calls has changed. *)
Theorem agent_failure_surfaced w query v veriface err :
  query ≠ "" →
  session_state w !! "username" = Some v →
  assistant_agent_run (agent_calls w) (forwarded_prompt query) =
    AgentFails err →
  outcome (assistant_interface query true veriface) w =
    Raise (AgentException err)
  ∧ agent_prompts (events (assistant_interface query true veriface) w) =
      [forwarded_prompt query]
  ∧ streamlit_run (assistant_interface query true veriface) w =
      (set_agent_calls (S (agent_calls w)) w,
       [AgentRun (forwarded_prompt query);
        StException (AgentException err)]).
Proof.
  intros Hne Hname Hfails.
  unfold outcome, events, streamlit_run.
  by rewrite (agent_failure_propagates _ _ _ _ _ Hne Hname Hfails).
Qed.

(** ** The session flag *)

Lemma start_spec w :
  start w =
    (Ok tt,
     match session_state w !! "logged_in" with
     | Some _ => w
     | None => set_session_state <["logged_in" := VBool false]> w
     end, []).
Proof.
  unfold start, bind, session_has.
  destruct (session_state w !! "logged_in") as [v|] eqn:Hlook.
  - rewrite bool_decide_eq_true_2 by eauto. done.
  - rewrite bool_decide_eq_false_2 by (by intros [? ?]). done.
Qed.

Lemma start_initialised w :
  is_Some (session_state w !! "logged_in") → exec start w = w.
Proof.
  intros [v Hv]. unfold exec. by rewrite start_spec, Hv.
Qed.

(** C9: [start] displays nothing and never fails; running it twice leaves
    the world as the first run left it; a session in which "logged_in" is
    already set, to whatever value, is not touched; and in a fresh session
    it sets "logged_in" to [False] and nothing else. *)
Theorem start_idempotent w v :
  start (exec start w) = (Ok tt, exec start w, [])
  ∧ exec start (set_session_state <["logged_in" := v]> w) =
      set_session_state <["logged_in" := v]> w
  ∧ session_state (exec start (set_session_state (λ _, ∅) w)) =
      <["logged_in" := VBool false]> ∅.
Proof.
  split; [|split].
  - rewrite (start_spec (exec start w)). unfold exec. rewrite start_spec.
    cbn [fst snd].
    destruct (session_state w !! "logged_in") as [v0|] eqn:Hlook.
    + by rewrite Hlook.
    + cbn [set_session_state session_state]. by rewrite lookup_insert_eq.
  - apply start_initialised. cbn [set_session_state session_state].
    rewrite lookup_insert_eq. eauto.
  - unfold exec. rewrite start_spec. cbn [fst snd set_session_state session_state].
    by rewrite lookup_empty.
Qed.

(** ** What a run changes *)

Lemma register_user_session w name pw confirm button :
  session_state (exec (register_user name pw confirm button) w) =
    session_state w.
Proof.
  unfold exec, register_user.
  destruct button; [|done].
  destruct (String.eqb pw confirm); [|done]. simpl.
  unfold bind, query_first.
  destruct (find_user name (users w)) eqn:Hfind; [done |].
  rewrite hash_password_spec. cbv zeta.
  destruct (bcrypt_hashpw _ _); [|done].
  unfold add_commit. simpl. by rewrite Hfind.
Qed.

Lemma register_user_users w name pw confirm button :
  users (exec (register_user name pw confirm button) w) = users w
  ∨ (button = true ∧ pw = confirm
     ∧ ∃ hashed,
         bcrypt_hashpw (encode_utf8 pw) (bcrypt_gensalt (urandom w)).1 =
           Some hashed
         ∧ users (exec (register_user name pw confirm button) w) =
             users w ++ [registered_row w name hashed]).
Proof.
  unfold exec, register_user.
  destruct button; [|by left].
  destruct (String.eqb pw confirm) eqn:Heq; [|by left].
  apply String.eqb_eq in Heq. simpl.
  unfold bind, query_first.
  destruct (find_user name (users w)) eqn:Hfind; [by left |].
  rewrite hash_password_spec. cbv zeta.
  destruct (bcrypt_hashpw _ _) as [hashed|] eqn:Hhash; [|by left].
  unfold add_commit. simpl. rewrite Hfind. right.
  split; [done |]. split; [done |]. by exists hashed.
Qed.

Lemma login_user_users w name pw button :
  users (exec (login_user name pw button) w) = users w.
Proof.
  unfold exec, login_user.
  destruct button; [|done].
  unfold bind, query_first.
  destruct (find_user name (users w)) as [r|]; [|done]. simpl.
  unfold check_password, checkpw.
  by destruct (bcrypt_checkpw _ _) as [[|]|].
Qed.

Lemma assistant_interface_users w query get_answer veriface :
  users (exec (assistant_interface query get_answer veriface) w) = users w.
Proof.
  unfold exec, assistant_interface, bind, session_get.
  destruct (session_state w !! "username"); [|done].
  destruct get_answer; [|by destruct veriface].
  destruct (String.eqb query ""); simpl; [by destruct veriface |].
  destruct (_ || _ || _); unfold agent_run;
    destruct (assistant_agent_run _ _); by destruct veriface.
Qed.

(** With "logged_in" set, [app] is the page chosen by the flag. *)
Lemma app_initialised w ui v :
  session_state w !! "logged_in" = Some v →
  app ui w =
    if truthy v then
      assistant_interface (query_in ui) (btn_get_answer ui) (btn_veriface ui) w
    else
      match choice ui with
      | Login => login_user (username_in ui) (password_in ui) (btn_login ui) w
      | Register =>
          register_user (username_in ui) (password_in ui) (confirm_in ui)
            (btn_register ui) w
      end.
Proof.
  intros Hlook. unfold app. unfold bind at 1. rewrite start_spec, Hlook.
  unfold bind, session_get. rewrite Hlook.
  destruct (truthy v); simpl.
  - by destruct (assistant_interface _ _ _ w) as [[? ?] ?].
  - destruct (choice ui).
    + by destruct (login_user _ _ _ w) as [[? ?] ?].
    + by destruct (register_user _ _ _ _ w) as [[? ?] ?].
Qed.

(** In a session that has not started, [app] first sets the flag. *)
Lemma app_fresh w ui :
  session_state w !! "logged_in" = None →
  exec (app ui) w =
    exec (app ui) (set_session_state <["logged_in" := VBool false]> w).
Proof.
  intros Hlook. unfold exec, app. unfold bind at 1 3.
  rewrite !start_spec, Hlook.
  cbn [set_session_state session_state]. by rewrite lookup_insert_eq.
Qed.

Lemma app_users w ui :
  users (exec (app ui) w) = users w
  ∨ (choice ui = Register ∧ btn_register ui = true
     ∧ password_in ui = confirm_in ui
     ∧ ∃ n hashed,
         bcrypt_hashpw (encode_utf8 (password_in ui)) (bcrypt_gensalt n).1 =
           Some hashed
         ∧ users (exec (app ui) w) =
             users w ++
               [User.mk (next_id (users w)) (username_in ui) hashed]).
Proof.
  assert (Hgo : ∀ w0 v, session_state w0 !! "logged_in" = Some v →
    users (exec (app ui) w0) = users w0
    ∨ (choice ui = Register ∧ btn_register ui = true
       ∧ password_in ui = confirm_in ui
       ∧ ∃ hashed,
           bcrypt_hashpw (encode_utf8 (password_in ui))
             (bcrypt_gensalt (urandom w0)).1 = Some hashed
           ∧ users (exec (app ui) w0) =
               users w0 ++ [registered_row w0 (username_in ui) hashed])).
  { intros w0 v Hlook. unfold exec. rewrite (app_initialised _ _ _ Hlook).
    destruct (truthy v).
    - left. apply assistant_interface_users.
    - destruct (choice ui) eqn:Hchoice.
      + left. apply login_user_users.
      + destruct (register_user_users w0 (username_in ui) (password_in ui)
                    (confirm_in ui) (btn_register ui)) as [?|(?&?&?)];
          [by left | by right]. }
  destruct (session_state w !! "logged_in") as [v|] eqn:Hlook.
  - destruct (Hgo w v Hlook) as [?|(?&?&?&hashed&?&?)]; [by left |].
    right. repeat split; try done. by exists (urandom w), hashed.
  - rewrite (app_fresh _ _ Hlook).
    destruct (Hgo (set_session_state <["logged_in" := VBool false]> w)
                (VBool false)) as [?|(?&?&?&hashed&?&?)].
    + cbn [set_session_state session_state]. by rewrite lookup_insert_eq.
    + by left.
    + right. repeat split; try done. by exists (urandom w), hashed.
Qed.

(** C10: [register_user] never writes to [st.session_state].  In
    particular, when a session that is not logged in submits the
    registration form with a free name and the password typed twice, the
    run displays "Registration successful! Please log in." as soon as
    bcrypt hashes the password, and the session is as before: "logged_in"
    is still [False] and "username" is still not set. *)
Theorem register_keeps_session w ui :
  choice ui = Register →
  btn_register ui = true →
  password_in ui = confirm_in ui →
  find_user (username_in ui) (users w) = None →
  session_state w !! "logged_in" = Some (VBool false) →
  session_state w !! "username" = None →
  (∀ name pw confirm button w0,
     session_state (exec (register_user name pw confirm button) w0) =
       session_state w0)
  ∧ (∀ hashed,
       bcrypt_hashpw (encode_utf8 (password_in ui))
         (bcrypt_gensalt (urandom w)).1 = Some hashed →
       displayed (events (app ui) w) =
         [StSuccess "Registration successful! Please log in."])
  ∧ session_state (exec (app ui) w) = session_state w
  ∧ session_state (exec (app ui) w) !! "logged_in" = Some (VBool false)
  ∧ session_state (exec (app ui) w) !! "username" = None.
Proof.
  intros Hchoice Hbtn Hconfirm Hfresh Hflag Hname.
  split; [intros; apply register_user_session |].
  unfold events, exec. rewrite (app_initialised _ _ _ Hflag).
  cbn [truthy]. rewrite Hchoice, Hbtn, <- Hconfirm.
  split.
  - intros hashed Hhash.
    by rewrite (register_user_fresh _ _ _ _ Hfresh Hhash).
  - pose proof (register_user_session w (username_in ui) (password_in ui)
                  (password_in ui) true) as Hsession.
    unfold exec in Hsession. rewrite Hsession. done.
Qed.

(** ** No plaintext in the table *)

Lemma stored_hashed_step done a w :
  bcrypt_not_plain →
  stored_hashed done w → stored_hashed (done ++ [a]) (step a w).
Proof.
  intros Hplain Hinv r Hr.
  assert (Hold : r ∈ users w →
    ∃ pw a0 n, a0 ∈ done ++ [a] ∧ registers (User.username r) pw a0
      ∧ bcrypt_hashpw (encode_utf8 pw) (bcrypt_gensalt n).1 =
          Some (User.password r)
      ∧ User.password r ≠ encode_utf8 pw).
  { intros Hin. destruct (Hinv r Hin) as (pw & a0 & n & Ha0 & Hrest).
    exists pw, a0, n. split; [|done]. apply elem_of_app. by left. }
  destruct a as [ui|]; [|by apply Hold].
  simpl in Hr.
  destruct (app_users w ui)
    as [Hsame|(Hchoice & Hbtn & Hconfirm & n & hashed & Hhash & Hnew)].
  - apply Hold. by rewrite <- Hsame.
  - rewrite Hnew in Hr. apply elem_of_app in Hr as [Hin|Hin]; [by apply Hold |].
    apply list_elem_of_singleton in Hin as ->.
    exists (password_in ui), (Rerun ui), n. cbn [User.username User.password].
    split; [apply elem_of_app; right; by apply list_elem_of_singleton |].
    split; [done |]. split; [done | by apply (Hplain _ n)].
Qed.

Lemma stored_hashed_run_all acts done w :
  bcrypt_not_plain →
  stored_hashed done w → stored_hashed (done ++ acts) (run_all acts w).
Proof.
  intros Hplain. revert done w.
  induction acts as [|a acts IH]; intros done w Hinv; simpl.
  - by rewrite app_nil_r.
  - replace (done ++ a :: acts) with ((done ++ [a]) ++ acts)
      by (by rewrite <- app_assoc).
    apply IH. by apply stored_hashed_step.
Qed.

(** C8: provided a bcrypt hash never equals the bytes it hashes, after any
    sequence of runs of the script and of session changes, started from the
    empty table, every stored row was written by a submission of the
    registration form in that sequence, and its [password] column holds the
    bcrypt hash, under a salt drawn by [gensalt], of the password typed
    there; it differs from the UTF-8 bytes of that password. *)
Theorem no_plaintext_stored seed acts r :
  bcrypt_not_plain →
  r ∈ users (run_all acts (initial_world seed)) →
  ∃ pw a n,
    a ∈ acts
    ∧ registers (User.username r) pw a
    ∧ bcrypt_hashpw (encode_utf8 pw) (bcrypt_gensalt n).1 =
        Some (User.password r)
    ∧ User.password r ≠ encode_utf8 pw.
Proof.
  intros Hplain Hr.
  apply (stored_hashed_run_all acts [] (initial_world seed) Hplain); [|done].
  intros r0 Hr0. simpl in Hr0. by apply elem_of_nil in Hr0.
Qed.

(** ** The form handlers, in full *)

Lemma register_user_cases w name pw confirm :
  register_user name pw confirm true w =
    if negb (String.eqb pw confirm) then
      (Ok tt, w, [StError "Passwords do not match!"])
    else
      match find_user name (users w) with
      | Some _ =>
          (Ok tt, w,
           [DbQuery name;
            StError "Username already exists! Please choose another one."])
      | None =>
          match bcrypt_hashpw (encode_utf8 pw)
                  (bcrypt_gensalt (urandom w)).1 with
          | Some hashed =>
              (Ok tt, registered_world w name hashed,
               [DbQuery name; BcryptGensalt;
                BcryptHashpw (encode_utf8 pw) (bcrypt_gensalt (urandom w)).1;
                DbCommit (registered_row w name hashed);
                StSuccess "Registration successful! Please log in."])
          | None =>
              (Raise ValueError,
               set_urandom (bcrypt_gensalt (urandom w)).2 w,
               [DbQuery name; BcryptGensalt;
                BcryptHashpw (encode_utf8 pw)
                  (bcrypt_gensalt (urandom w)).1])
          end
      end.
Proof.
  destruct (String.eqb pw confirm) eqn:Heq;
    [|unfold register_user; by rewrite Heq].
  apply String.eqb_eq in Heq as <-. cbn [negb].
  destruct (find_user name (users w)) as [r|] eqn:Hfind.
  - by apply register_user_taken with r.
  - destruct (bcrypt_hashpw _ _) as [hashed|] eqn:Hhash.
    + by apply register_user_fresh.
    + by apply register_user_refused.
Qed.

Lemma login_user_cases w name pw :
  login_user name pw true w =
    match find_user name (users w) with
    | Some r =>
        match bcrypt_checkpw (encode_utf8 pw) (User.password r) with
        | Some true =>
            (Ok tt,
             set_session_state
               (λ s, <["username" := VStr name]>
                       (<["logged_in" := VBool true]> s)) w,
             [DbQuery name; BcryptCheckpw (encode_utf8 pw) (User.password r);
              StSuccess "Login successful!"])
        | Some false =>
            (Ok tt, w,
             [DbQuery name; BcryptCheckpw (encode_utf8 pw) (User.password r);
              StError "Invalid username or password"])
        | None =>
            (Raise ValueError, w,
             [DbQuery name; BcryptCheckpw (encode_utf8 pw) (User.password r)])
        end
    | None =>
        (Ok tt, w, [DbQuery name; StError "Invalid username or password"])
    end.
Proof.
  destruct (find_user name (users w)) as [r|] eqn:Hfind.
  - by apply login_user_present.
  - by apply login_user_absent.
Qed.

(** X2: a submitted registration displays the success message exactly when
    the two passwords are equal, the name is not in the table and bcrypt
    hashes the password; unless the passwords are equal and the name is
    free, the world is left exactly as it was. *)
Theorem register_success_iff w name pw confirm :
  (displayed (events (register_user name pw confirm true) w) =
     [StSuccess "Registration successful! Please log in."]
   ↔ pw = confirm ∧ find_user name (users w) = None
     ∧ is_Some (bcrypt_hashpw (encode_utf8 pw)
                  (bcrypt_gensalt (urandom w)).1))
  ∧ (¬ (pw = confirm ∧ find_user name (users w) = None) →
     exec (register_user name pw confirm true) w = w).
Proof.
  unfold events, exec. rewrite register_user_cases.
  destruct (String.eqb pw confirm) eqn:Heq; cbn [negb].
  - apply String.eqb_eq in Heq.
    destruct (find_user name (users w)) as [r|].
    + cbn. split; [split; [done | by intros (_ & ? & _)] | done].
    + destruct (bcrypt_hashpw _ _) as [hashed|]; cbn.
      * split; [|by intros []]. split; [eauto | done].
      * split; [|by intros []].
        split; [done | by intros (_ & _ & [? ?])].
  - apply String.eqb_neq in Heq. cbn.
    split; [split; [done | by intros (? & _)] | done].
Qed.

(** X3: a submitted login displays "Login successful!" exactly when the
    table has a row for the name and bcrypt accepts the typed password
    against the hash of that row; otherwise the world is left as it was. *)
Theorem login_success_iff w name pw :
  (displayed (events (login_user name pw true) w) =
     [StSuccess "Login successful!"]
   ↔ ∃ r, find_user name (users w) = Some r
          ∧ bcrypt_checkpw (encode_utf8 pw) (User.password r) = Some true)
  ∧ (¬ (∃ r, find_user name (users w) = Some r
             ∧ bcrypt_checkpw (encode_utf8 pw) (User.password r)
               = Some true) →
     exec (login_user name pw true) w = w).
Proof.
  unfold events, exec. rewrite login_user_cases.
  destruct (find_user name (users w)) as [r|].
  - destruct (bcrypt_checkpw _ _) as [[|]|] eqn:Hcheck; cbn.
    + split; [split; [eauto | done] |]. intros Hno. destruct Hno. eauto.
    + split; [|done]. split; [done |].
      intros (r0 & Hr0 & Hok). congruence.
    + split; [|done]. split; [done |].
      intros (r0 & Hr0 & Hok). congruence.
  - cbn. split; [|done]. split; [done | by intros (? & ? & ?)].
Qed.

(** X4: [login_user] only ever writes to the session: the table, the random
    source and the agent are left alone, whether or not the button was
    pressed and whether or not the login goes through. *)
Theorem login_user_frame w name pw button :
  users (exec (login_user name pw button) w) = users w
  ∧ urandom (exec (login_user name pw button) w) = urandom w
  ∧ agent_calls (exec (login_user name pw button) w) = agent_calls w
  ∧ agent_prompts (events (login_user name pw button) w) = [].
Proof.
  unfold exec, events. destruct button; [|done].
  rewrite login_user_cases.
  destruct (find_user _ _); [|done].
  by destruct (bcrypt_checkpw _ _) as [[|]|].
Qed.

Lemma find_user_app_other name rows row :
  User.username row ≠ name →
  find_user name (rows ++ [row]) = find_user name rows.
Proof.
  unfold find_user. intros Hne.
  induction rows as [|r rows IH]; simpl.
  - apply String.eqb_neq in Hne. by rewrite Hne.
  - by destruct (String.eqb (User.username r) name).
Qed.

Lemma login_user_events_find w1 w2 name pw button :
  find_user name (users w1) = find_user name (users w2) →
  events (login_user name pw button) w1 = events (login_user name pw button) w2.
Proof.
  intros Hfind. unfold events. destruct button; [|done].
  rewrite !login_user_cases, Hfind.
  destruct (find_user name (users w2)) as [r|]; [|reflexivity].
  by destruct (bcrypt_checkpw _ _) as [[|]|].
Qed.

(** X5: a registration for one name does not touch the accounts of other
    names: for every other name the lookup gives what it gave before, and a
    login under that name makes the same calls and displays the same
    message as before. *)
Theorem register_leaves_other_users w name pw confirm button other pw' button' :
  name ≠ other →
  find_user other (users (exec (register_user name pw confirm button) w)) =
    find_user other (users w)
  ∧ events (login_user other pw' button')
      (exec (register_user name pw confirm button) w) =
    events (login_user other pw' button') w.
Proof.
  intros Hne.
  assert (Hfind :
    find_user other (users (exec (register_user name pw confirm button) w)) =
      find_user other (users w)).
  { destruct (register_user_users w name pw confirm button)
      as [->|(_ & _ & hashed & _ & ->)]; [done |].
    by apply find_user_app_other. }
  split; [done | by apply login_user_events_find].
Qed.

(** ** [app] as [start] followed by a page *)

Lemma start_frame w :
  users (exec start w) = users w
  ∧ urandom (exec start w) = urandom w
  ∧ agent_calls (exec start w) = agent_calls w
  ∧ session_state (exec start w) !! "username" =
      session_state w !! "username"
  ∧ authenticated (exec start w) = authenticated w
  ∧ is_Some (session_state (exec start w) !! "logged_in").
Proof.
  unfold exec, authenticated. rewrite start_spec. cbn [fst snd].
  destruct (session_state w !! "logged_in") as [v|] eqn:Hlook.
  - rewrite Hlook. eauto 10.
  - cbn [set_session_state users urandom agent_calls session_state].
    rewrite lookup_insert_eq, lookup_insert_ne by done. eauto 10.
Qed.

Lemma app_start w ui : app ui w = app ui (exec start w).
Proof.
  unfold exec, app. unfold bind at 1 3. rewrite !start_spec. cbn [fst snd].
  destruct (session_state w !! "logged_in") as [v|] eqn:Hlook.
  - by rewrite Hlook.
  - cbn [set_session_state session_state]. by rewrite lookup_insert_eq.
Qed.

Lemma app_spec w ui : app ui w = page ui (exec start w) (exec start w).
Proof.
  rewrite app_start.
  destruct (start_frame w) as (_ & _ & _ & _ & _ & [v Hv]).
  rewrite (app_initialised _ _ _ Hv). unfold page, authenticated.
  rewrite Hv. destruct (truthy v); [done | by destruct (choice ui)].
Qed.

(** ** The table over many runs *)

Lemma find_user_None name rows :
  find_user name rows = None → name ∉ map User.username rows.
Proof.
  unfold find_user.
  induction rows as [|r rows IH]; simpl; intros Hfind.
  - apply not_elem_of_nil.
  - destruct (String.eqb (User.username r) name) eqn:Heq; [done |].
    apply String.eqb_neq in Heq.
    apply not_elem_of_cons. split; [done | by apply IH].
Qed.

Lemma find_user_app_some name rows more r :
  find_user name rows = Some r → find_user name (rows ++ more) = Some r.
Proof.
  unfold find_user.
  induction rows as [|r0 rows IH]; simpl; [done |].
  destruct (String.eqb (User.username r0) name); [done | apply IH].
Qed.

Lemma register_user_users_fresh w name pw confirm button :
  users (exec (register_user name pw confirm button) w) = users w
  ∨ (button = true ∧ pw = confirm ∧ find_user name (users w) = None
     ∧ ∃ hashed,
         users (exec (register_user name pw confirm button) w) =
           users w ++ [registered_row w name hashed]).
Proof.
  unfold exec. destruct button; [|by left].
  rewrite register_user_cases.
  destruct (String.eqb pw confirm) eqn:Heq; [|by left].
  apply String.eqb_eq in Heq. cbn [negb].
  destruct (find_user name (users w)) eqn:Hfind; [by left |].
  destruct (bcrypt_hashpw _ _) as [hashed|]; [|by left].
  right. repeat split; try done. by exists hashed.
Qed.

Lemma app_users_fresh w ui :
  users (exec (app ui) w) = users w
  ∨ (find_user (username_in ui) (users w) = None
     ∧ ∃ row, User.username row = username_in ui
              ∧ users (exec (app ui) w) = users w ++ [row]).
Proof.
  unfold exec. rewrite app_spec.
  destruct (start_frame w) as (Husers & _).
  set (w0 := exec start w) in *. unfold page.
  destruct (authenticated w0).
  - left. rewrite <- Husers. apply assistant_interface_users.
  - destruct (choice ui).
    + left. rewrite <- Husers. apply login_user_users.
    + destruct (register_user_users_fresh w0 (username_in ui) (password_in ui)
                  (confirm_in ui) (btn_register ui))
        as [Hsame|(_ & _ & Hfresh & hashed & Hnew)].
      * left. by rewrite <- Husers.
      * right. rewrite <- Husers. split; [done |].
        by exists (registered_row w0 (username_in ui) hashed).
Qed.

Lemma step_users_fresh a w :
  users (step a w) = users w
  ∨ ∃ row, find_user (User.username row) (users w) = None
           ∧ users (step a w) = users w ++ [row].
Proof.
  destruct a as [ui|]; [|by left]. simpl.
  destruct (app_users_fresh w ui) as [?|(Hfresh & row & Hname & Hnew)];
    [by left |].
  right. exists row. by rewrite Hname.
Qed.

Lemma usernames_unique_step a w :
  NoDup (map User.username (users w)) →
  NoDup (map User.username (users (step a w))).
Proof.
  intros Hnodup.
  destruct (step_users_fresh a w) as [->|(row & Hfresh & ->)]; [done |].
  rewrite map_app. apply NoDup_app. split; [done |]. split.
  - intros name Hin Hrow. simpl in Hrow.
    apply list_elem_of_singleton in Hrow as ->.
    by apply find_user_None in Hfresh.
  - apply NoDup_singleton.
Qed.

Lemma usernames_unique_run_all acts w :
  NoDup (map User.username (users w)) →
  NoDup (map User.username (users (run_all acts w))).
Proof.
  revert w. induction acts as [|a acts IH]; intros w Hnodup; simpl; [done |].
  apply IH. by apply usernames_unique_step.
Qed.

(** X6: after any sequence of runs of the script and of session changes,
    started from the empty table, no two rows of the table carry the same
    username. *)
Theorem usernames_unique seed acts :
  NoDup (map User.username (users (run_all acts (initial_world seed)))).
Proof.
  apply usernames_unique_run_all. simpl. apply NoDup_nil_2.
Qed.

(** X7: the table only grows at its end: whatever runs follow, the rows
    present before are still there, unchanged and in the same order, in
    front of the rows written since. *)
Theorem table_append_only acts w :
  ∃ added, users (run_all acts w) = users w ++ added.
Proof.
  revert w. induction acts as [|a acts IH]; intros w; simpl.
  - exists []. by rewrite app_nil_r.
  - destruct (IH (step a w)) as [added Hadded].
    destruct (step_users_fresh a w) as [Hsame|(row & _ & Hnew)].
    + exists added. by rewrite Hadded, Hsame.
    + exists (row :: added). rewrite Hadded, Hnew. by rewrite <- app_assoc.
Qed.

Lemma find_user_run_all acts w name r :
  find_user name (users w) = Some r →
  find_user name (users (run_all acts w)) = Some r.
Proof.
  revert w. induction acts as [|a acts IH]; intros w Hfind; simpl; [done |].
  apply IH.
  destruct (step_users_fresh a w) as [->|(row & _ & ->)]; [done |].
  by apply find_user_app_some.
Qed.

(** X8: the row found for a name stays the row found for that name through
    all later runs: a second registration under a taken name, with whatever
    password, does not replace the stored hash. *)
Theorem stored_row_permanent acts w name r :
  find_user name (users w) = Some r →
  find_user name (users (run_all acts w)) = Some r.
Proof. apply find_user_run_all. Qed.

(** X9: credentials keep working.  If bcrypt verifies what it hashed, then
    once a free name has been registered with a password that bcrypt
    hashed, a login with that name and password succeeds after any further
    runs of the script and session changes. *)
Theorem credentials_keep_working acts w name pw hashed :
  bcrypt_sound →
  find_user name (users w) = None →
  bcrypt_hashpw (encode_utf8 pw) (bcrypt_gensalt (urandom w)).1 =
    Some hashed →
  displayed
    (events (login_user name pw true)
       (run_all acts (exec (register_user name pw pw true) w))) =
    [StSuccess "Login successful!"].
Proof.
  intros Hsound Hfresh Hhash. unfold exec at 1.
  rewrite (register_user_fresh _ _ _ _ Hfresh Hhash). cbn [fst snd].
  unfold events.
  rewrite (login_user_present _ _ _ (registered_row w name hashed)).
  2:{ apply find_user_run_all. by apply find_user_app_fresh. }
  cbn [registered_row User.password]. by rewrite (Hsound _ _ _ Hhash).
Qed.

(** ** The session over many runs *)

Lemma assistant_interface_frame w query get_answer veriface :
  session_state (exec (assistant_interface query get_answer veriface) w) =
    session_state w
  ∧ urandom (exec (assistant_interface query get_answer veriface) w) =
      urandom w.
Proof.
  unfold exec, assistant_interface, bind, session_get.
  destruct (session_state w !! "username"); [|done].
  destruct get_answer; [|by destruct veriface].
  destruct (String.eqb query ""); simpl; [by destruct veriface |].
  destruct (_ || _ || _); unfold agent_run;
    destruct (assistant_agent_run _ _); by destruct veriface.
Qed.

Lemma assistant_interface_outcome w query get_answer veriface v :
  session_state w !! "username" = Some v →
  outcome (assistant_interface query get_answer veriface) w = Ok tt
  ∨ ∃ err, outcome (assistant_interface query get_answer veriface) w =
             Raise (AgentException err).
Proof.
  intros Hname. unfold outcome, assistant_interface, bind, session_get.
  rewrite Hname.
  destruct get_answer; [|left; by destruct veriface].
  destruct (String.eqb query ""); simpl; [left; by destruct veriface |].
  destruct (_ || _ || _); unfold agent_run;
    destruct (assistant_agent_run _ _) as [text|err];
    first [left; by destruct veriface | right; by exists err].
Qed.

Lemma assistant_interface_agent w query get_answer veriface :
  (agent_prompts (events (assistant_interface query get_answer veriface) w)
     = []
   ∧ agent_calls (exec (assistant_interface query get_answer veriface) w)
     = agent_calls w)
  ∨ (∃ prompt,
       agent_prompts
         (events (assistant_interface query get_answer veriface) w)
       = [prompt]
     ∧ agent_calls (exec (assistant_interface query get_answer veriface) w)
       = S (agent_calls w)).
Proof.
  unfold events, exec, assistant_interface, bind, session_get.
  destruct (session_state w !! "username"); [|by left].
  destruct get_answer; [|left; by destruct veriface].
  destruct (String.eqb query ""); simpl; [left; by destruct veriface |].
  right.
  destruct (_ || _ || _); unfold agent_run;
    destruct (assistant_agent_run _ _); eexists; by destruct veriface.
Qed.

Lemma form_handlers_no_agent w ui :
  let handler :=
    match choice ui with
    | Login => login_user (username_in ui) (password_in ui) (btn_login ui)
    | Register =>
        register_user (username_in ui) (password_in ui) (confirm_in ui)
          (btn_register ui)
    end in
  agent_prompts (events handler w) = []
  ∧ agent_calls (exec handler w) = agent_calls w.
Proof.
  cbv zeta. unfold events, exec. destruct (choice ui).
  - destruct (btn_login ui); [|done]. rewrite login_user_cases.
    destruct (find_user _ _); [|done].
    by destruct (bcrypt_checkpw _ _) as [[|]|].
  - destruct (btn_register ui); [|done]. rewrite register_user_cases.
    destruct (negb _); [done |]. destruct (find_user _ _); [done |].
    by destruct (bcrypt_hashpw _ _).
Qed.

Lemma form_handlers_outcome w ui :
  let handler :=
    match choice ui with
    | Login => login_user (username_in ui) (password_in ui) (btn_login ui)
    | Register =>
        register_user (username_in ui) (password_in ui) (confirm_in ui)
          (btn_register ui)
    end in
  outcome handler w = Ok tt ∨ outcome handler w = Raise ValueError.
Proof.
  cbv zeta. unfold outcome. destruct (choice ui).
  - destruct (btn_login ui); [|by left]. rewrite login_user_cases.
    destruct (find_user _ _); [|by left].
    destruct (bcrypt_checkpw _ _) as [[|]|]; [by left | by left | by right].
  - destruct (btn_register ui); [|by left]. rewrite register_user_cases.
    destruct (negb _); [by left |]. destruct (find_user _ _); [by left |].
    destruct (bcrypt_hashpw _ _); [by left | by right].
Qed.

Lemma login_user_session w name pw button :
  exec (login_user name pw button) w = w
  ∨ ∃ r, find_user name (users w) = Some r
         ∧ exec (login_user name pw button) w =
             set_session_state
               (λ s, <["username" := VStr name]>
                       (<["logged_in" := VBool true]> s)) w.
Proof.
  unfold exec. destruct button; [|by left]. rewrite login_user_cases.
  destruct (find_user name (users w)) as [r|] eqn:Hfind; [|by left].
  destruct (bcrypt_checkpw _ _) as [[|]|]; [|by left|by left].
  right. by exists r.
Qed.

Lemma session_consistent_page ui w :
  session_consistent w → session_consistent (exec (page ui w) w).
Proof.
  intros Hinv. unfold page.
  destruct (authenticated w) eqn:Hauth.
  - destruct (assistant_interface_frame w (query_in ui) (btn_get_answer ui)
                (btn_veriface ui)) as [Hsession _].
    unfold session_consistent, authenticated in *.
    rewrite Hsession, assistant_interface_users. by apply Hinv.
  - destruct (choice ui).
    + destruct (login_user_session w (username_in ui) (password_in ui)
                  (btn_login ui)) as [->|(r & Hfind & ->)]; [done |].
      intros _. exists (username_in ui), r.
      cbn [set_session_state session_state users].
      by rewrite lookup_insert_eq.
    + unfold session_consistent, authenticated.
      rewrite register_user_session. unfold authenticated in Hauth.
      rewrite Hauth. done.
Qed.

Lemma session_consistent_step a w :
  session_consistent w → session_consistent (step a w).
Proof.
  intros Hinv. destruct a as [ui|]; simpl.
  - unfold exec. rewrite app_spec. apply session_consistent_page.
    destruct (start_frame w) as (Husers & _ & _ & Hname & Hauth & _).
    unfold session_consistent. by rewrite Hauth, Hname, Husers.
  - unfold session_consistent, authenticated.
    cbn [set_session_state session_state]. by rewrite lookup_empty.
Qed.

Lemma session_consistent_run_all acts w :
  session_consistent w → session_consistent (run_all acts w).
Proof.
  revert w. induction acts as [|a acts IH]; intros w Hinv; simpl; [done |].
  apply IH. by apply session_consistent_step.
Qed.

Lemma session_consistent_initial seed : session_consistent (initial_world seed).
Proof.
  unfold session_consistent, authenticated. simpl. by rewrite lookup_empty.
Qed.

(** X10: after any sequence of runs and session changes from the empty
    table, a session that is marked as logged in carries a username, and
    that username has a row in the table: the flag is only ever set by a
    login that found the row. *)
Theorem authenticated_user_registered seed acts :
  authenticated (run_all acts (initial_world seed)) = true →
  ∃ name r,
    session_state (run_all acts (initial_world seed)) !! "username" =
      Some (VStr name)
    ∧ find_user name (users (run_all acts (initial_world seed))) = Some r.
Proof.
  apply (session_consistent_run_all acts (initial_world seed)).
  apply session_consistent_initial.
Qed.

(** X11: in every state reached from the empty table, no run of the script
    ends in [KeyError]: whenever the welcome title reads
    [st.session_state["username"]], a login has set it. *)
Theorem no_key_error_when_reachable seed acts ui key :
  outcome (app ui) (run_all acts (initial_world seed)) ≠ Raise (KeyError key).
Proof.
  pose proof (session_consistent_run_all acts _
                (session_consistent_initial seed)) as Hinv.
  set (w := run_all acts (initial_world seed)) in *.
  unfold outcome. rewrite app_spec.
  destruct (start_frame w) as (Husers & _ & _ & Hname & Hauth & _).
  unfold page. destruct (authenticated (exec start w)) eqn:Hauth0.
  - destruct Hinv as (name & r & Hlook & _); [by rewrite <- Hauth |].
    destruct (assistant_interface_outcome (exec start w) (query_in ui)
                (btn_get_answer ui) (btn_veriface ui) (VStr name))
      as [Hok|[err Herr]]; [by rewrite Hname | |];
      unfold outcome in *; congruence.
  - destruct (form_handlers_outcome (exec start w) ui) as [Hok|Hval];
      cbv zeta in *; unfold outcome in *; congruence.
Qed.

(** X12: there is no way out of a logged-in session through the script:
    while the flag is set, a run changes neither [st.session_state] nor the
    table nor the random source, whatever the widgets hold. *)
Theorem logged_in_session_stays w ui :
  authenticated w = true →
  session_state (exec (app ui) w) = session_state w
  ∧ users (exec (app ui) w) = users w
  ∧ urandom (exec (app ui) w) = urandom w.
Proof.
  intros Hauth. unfold exec. rewrite app_spec.
  assert (Hstart : exec start w = w).
  { apply start_initialised. unfold authenticated in Hauth.
    destruct (session_state w !! "logged_in"); [eauto | done]. }
  rewrite Hstart. unfold page. rewrite Hauth.
  destruct (assistant_interface_frame w (query_in ui) (btn_get_answer ui)
              (btn_veriface ui)) as [Hsession Hrandom].
  split; [done |]. split; [apply assistant_interface_users | done].
Qed.

(** X13: a session that is not logged in never reaches the agent: whatever
    the widgets hold, the run hands it no prompt. *)
Theorem unauthenticated_never_reaches_agent w ui :
  authenticated w = false →
  agent_prompts (events (app ui) w) = []
  ∧ agent_calls (exec (app ui) w) = agent_calls w.
Proof.
  intros Hauth. unfold events, exec. rewrite app_spec.
  destruct (start_frame w) as (_ & _ & Hcalls & _ & Hauth0 & _).
  unfold page. rewrite Hauth0, Hauth, <- Hcalls.
  apply form_handlers_no_agent.
Qed.

(** X14: a run of the script calls the agent at most once. *)
Theorem one_agent_call_per_run w ui :
  (List.length (agent_prompts (events (app ui) w)) ≤ 1)%nat.
Proof.
  unfold events. rewrite app_spec. unfold page.
  destruct (authenticated (exec start w)).
  - destruct (assistant_interface_agent (exec start w) (query_in ui)
                (btn_get_answer ui) (btn_veriface ui))
      as [[Hnone _]|(prompt & Hone & _)]; unfold events in *.
    + rewrite Hnone. simpl. lia.
    + rewrite Hone. simpl. lia.
  - destruct (form_handlers_no_agent (exec start w) ui) as [Hnone _].
    unfold events in Hnone. rewrite Hnone. simpl. lia.
Qed.

(** X15: when the agent answers a non-empty query of a logged-in session,
    the page displays "### Response:" and then the agent's text exactly as
    returned, followed by the Veriface link if that button is pressed; the
    world changes only by the count of agent calls. *)
Theorem answer_displayed_verbatim w query v veriface text :
  query ≠ "" →
  session_state w !! "username" = Some v →
  assistant_agent_run (agent_calls w) (forwarded_prompt query) = Answer text →
  assistant_interface query true veriface w =
    (Ok tt, set_agent_calls (S (agent_calls w)) w,
     [AgentRun (forwarded_prompt query); StWrite "### Response:";
      StSuccess text] ++ veriface_events veriface).
Proof.
  intros Hne Hname Hanswer.
  by rewrite (assistant_interface_query _ _ _ _ Hne Hname), Hanswer.
Qed.

(** X16: registration, login and a query compose.  From a session that is
    not logged in, if bcrypt verifies what it hashed, the name is free and
    bcrypt hashes the password, then a run submitting the registration
    form, a run submitting the login form with the same name and password,
    and a run submitting a non-empty query hand the agent exactly the
    prompt built for that query. *)
Theorem register_login_ask w reg login ask hashed :
  bcrypt_sound →
  session_state w !! "logged_in" = Some (VBool false) →
  find_user (username_in reg) (users w) = None →
  bcrypt_hashpw (encode_utf8 (password_in reg))
    (bcrypt_gensalt (urandom w)).1 = Some hashed →
  choice reg = Register → btn_register reg = true →
  password_in reg = confirm_in reg →
  choice login = Login → btn_login login = true →
  username_in login = username_in reg →
  password_in login = password_in reg →
  btn_get_answer ask = true → query_in ask ≠ "" →
  agent_prompts
    (events (app ask) (exec (app login) (exec (app reg) w))) =
    [forwarded_prompt (query_in ask)].
Proof.
  intros Hsound Hflag Hfresh Hhash Hreg Hbtn Hconfirm Hlogin Hbtn' Hname Hpw
    Hask Hquery.
  unfold exec at 2. rewrite (app_initialised _ _ _ Hflag). cbn [truthy].
  rewrite Hreg, Hbtn, <- Hconfirm, (register_user_fresh _ _ _ _ Hfresh Hhash).
  cbn [fst snd].
  set (w1 := registered_world w (username_in reg) hashed).
  assert (Hflag1 : session_state w1 !! "logged_in" = Some (VBool false))
    by done.
  unfold exec. rewrite (app_initialised _ _ _ Hflag1). cbn [truthy].
  rewrite Hlogin, Hbtn', Hname, Hpw.
  rewrite (login_user_present _ _ _
             (registered_row w (username_in reg) hashed)).
  2:{ by apply find_user_app_fresh. }
  cbn [registered_row User.password]. rewrite (Hsound _ _ _ Hhash).
  cbn [fst snd].
  set (w2 := set_session_state _ w1).
  assert (Hflag2 : session_state w2 !! "logged_in" = Some (VBool true)).
  { subst w2. cbn [set_session_state session_state].
    rewrite lookup_insert_ne by done. by rewrite lookup_insert_eq. }
  assert (Hname2 : session_state w2 !! "username" =
                     Some (VStr (username_in reg))).
  { subst w2. cbn [set_session_state session_state].
    by rewrite lookup_insert_eq. }
  unfold events. rewrite (app_initialised _ _ _ Hflag2). cbn [truthy].
  rewrite Hask.
  by apply (assistant_interface_prompts w2 (query_in ask)
              (VStr (username_in reg))).
Qed.

(** X17: the welcome title reads [st.session_state["username"]] before
    any widget is handled: in a session whose flag is set but which holds
    no username, the run raises [KeyError] at once, calls nobody and
    changes nothing. *)
Theorem missing_username_raises w ui :
  authenticated w = true →
  session_state w !! "username" = None →
  app ui w = (Raise (KeyError "username"), w, []).
Proof.
  intros Hauth Hname. rewrite app_spec.
  assert (Hstart : exec start w = w).
  { apply start_initialised. unfold authenticated in Hauth.
    destruct (session_state w !! "logged_in"); [eauto | done]. }
  rewrite Hstart. unfold page. rewrite Hauth.
  unfold assistant_interface, bind, session_get. by rewrite Hname.
Qed.

End App.

(** ** The stand-ins meet the assumptions made on bcrypt *)

Lemma demo_bcrypt_sound : bcrypt_sound demo_gensalt demo_hashpw demo_checkpw.
Proof.
  intros pw n hashed. unfold demo_checkpw, demo_hashpw, demo_gensalt.
  destruct (72 <? List.length pw)%nat; [done |].
  cbn [fst app]. intros [= <-]. cbn [drop].
  by rewrite String.eqb_refl.
Qed.

Lemma demo_bcrypt_not_plain : bcrypt_not_plain demo_gensalt demo_hashpw.
Proof.
  intros pw n hashed. unfold demo_hashpw, demo_gensalt.
  destruct (72 <? List.length pw)%nat; [done |].
  cbn [fst]. intros [= <-] Heq.
  apply (f_equal (@List.length Byte.byte)) in Heq.
  simpl in Heq. rewrite length_rev in Heq. lia.
Qed.

(** ** The properties at concrete inputs *)

Lemma register_then_login_witness :
  find_user "alice" (users (fresh_session 7)) = None
  ∧ session_state
      (exec (login_user demo_checkpw "alice" "secret" true)
         (exec (register_user demo_gensalt demo_hashpw
                  "alice" "secret" "secret" true)
            (fresh_session 7))) =
      <["username" := VStr "alice"]>
        (<["logged_in" := VBool true]> (session_state (fresh_session 7))).
Proof.
  split; [reflexivity |].
  pose proof (register_then_login demo_gensalt demo_hashpw demo_checkpw
                (fresh_session 7) "alice" "secret" (User.password alice_row)
                demo_bcrypt_sound eq_refl eq_refl) as H.
  cbv zeta in H. destruct H as (_ & _ & _ & _ & H). exact H.
Defined.

Lemma register_twice_duplicate_witness :
  outcome (register_user demo_gensalt demo_hashpw "alice" "secret" "secret"
             true) (fresh_session 7) = Ok tt
  ∧ register_user demo_gensalt demo_hashpw "alice" "other" "other" true
      (exec (register_user demo_gensalt demo_hashpw "alice" "secret" "secret"
               true) (fresh_session 7)) =
      (Ok tt,
       exec (register_user demo_gensalt demo_hashpw "alice" "secret" "secret"
               true) (fresh_session 7),
       [DbQuery "alice";
        StError "Username already exists! Please choose another one."]).
Proof.
  split; [reflexivity |].
  apply (register_twice_duplicate demo_gensalt demo_hashpw (fresh_session 7)
           "alice" "secret" "other").
  reflexivity.
Defined.

Lemma route_classification_witness :
  "write a function to sort a list" ≠ ""
  ∧ session_state alice_logged_in !! "username" = Some (VStr "alice")
  ∧ agent_prompts
      (events (assistant_interface echo_agent ascii_lower
                 "write a function to sort a list" true false)
         alice_logged_in) =
      ["Generate code for the following task: write a function to sort a list"].
Proof.
  split; [discriminate |]. split; [vm_compute; reflexivity |].
  apply (route_classification echo_agent ascii_lower alice_logged_in
           "write a function to sort a list" (VStr "alice") false).
  - discriminate.
  - vm_compute; reflexivity.
  - right. left. exists "write a ", " to sort a list". reflexivity.
Defined.

Lemma register_password_mismatch_witness :
  "a" ≠ "b"
  ∧ register_user demo_gensalt demo_hashpw "alice" "a" "b" true
      (fresh_session 7) =
      (Ok tt, fresh_session 7, [StError "Passwords do not match!"]).
Proof.
  split; [discriminate |].
  apply (register_password_mismatch demo_gensalt demo_hashpw
           (fresh_session 7) "alice" "a" "b").
  discriminate.
Defined.

Lemma empty_query_rejected_witness :
  session_state alice_logged_in !! "username" = Some (VStr "alice")
  ∧ assistant_interface echo_agent ascii_lower "" true false alice_logged_in =
      (Ok tt, alice_logged_in, [StWarning "Please enter a valid query"]).
Proof.
  split; [vm_compute; reflexivity |].
  apply (empty_query_rejected echo_agent ascii_lower alice_logged_in
           (VStr "alice") false).
  vm_compute; reflexivity.
Defined.

Lemma agent_failure_surfaced_witness :
  "solve 2x+3=7" ≠ ""
  ∧ session_state alice_logged_in !! "username" = Some (VStr "alice")
  ∧ down_agent (agent_calls alice_logged_in)
      (forwarded_prompt ascii_lower "solve 2x+3=7") =
      AgentFails "provider unreachable"
  ∧ streamlit_run
      (assistant_interface down_agent ascii_lower "solve 2x+3=7" true false)
      alice_logged_in =
      (set_agent_calls 1 alice_logged_in,
       [AgentRun (forwarded_prompt ascii_lower "solve 2x+3=7");
        StException (AgentException "provider unreachable")]).
Proof.
  split; [discriminate |]. split; [vm_compute; reflexivity |].
  split; [reflexivity |].
  apply (agent_failure_surfaced down_agent ascii_lower alice_logged_in
           "solve 2x+3=7" (VStr "alice") false "provider unreachable").
  - discriminate.
  - vm_compute; reflexivity.
  - reflexivity.
Defined.

Lemma no_plaintext_stored_witness :
  alice_row ∈
    users (run_all demo_gensalt demo_hashpw demo_checkpw echo_agent
             ascii_lower [Rerun alice_register_form] (initial_world 7))
  ∧ ∃ pw a n,
      a ∈ [Rerun alice_register_form]
      ∧ registers (User.username alice_row) pw a
      ∧ demo_hashpw (encode_utf8 pw) (demo_gensalt n).1 =
          Some (User.password alice_row)
      ∧ User.password alice_row ≠ encode_utf8 pw.
Proof.
  assert (Hin : alice_row ∈
    users (run_all demo_gensalt demo_hashpw demo_checkpw echo_agent
             ascii_lower [Rerun alice_register_form] (initial_world 7))).
  { vm_compute. apply list_elem_of_here. }
  split; [exact Hin |].
  exact (no_plaintext_stored demo_gensalt demo_hashpw demo_checkpw echo_agent
           ascii_lower 7 [Rerun alice_register_form] alice_row
           demo_bcrypt_not_plain Hin).
Defined.

Lemma register_keeps_session_witness :
  choice alice_register_form = Register
  ∧ btn_register alice_register_form = true
  ∧ password_in alice_register_form = confirm_in alice_register_form
  ∧ find_user (username_in alice_register_form) (users (fresh_session 7)) =
      None
  ∧ session_state (fresh_session 7) !! "logged_in" = Some (VBool false)
  ∧ session_state (fresh_session 7) !! "username" = None
  ∧ session_state
      (exec (app demo_gensalt demo_hashpw demo_checkpw echo_agent ascii_lower
               alice_register_form)
         (fresh_session 7)) =
      session_state (fresh_session 7).
Proof.
  repeat (split; [vm_compute; reflexivity |]).
  destruct (register_keeps_session demo_gensalt demo_hashpw demo_checkpw
              echo_agent ascii_lower (fresh_session 7) alice_register_form
              eq_refl eq_refl eq_refl eq_refl eq_refl eq_refl)
    as (_ & _ & H & _).
  exact H.
Defined.

(** ** Where the script departs from the specification *)

(** C6, as stated, fails: a query made of one space is blank, yet it is
    classified, handed to the agent and answered; no warning is shown. *)
Lemma blank_query_reaches_agent :
  is_blank " " = true
  ∧ assistant_interface echo_agent ascii_lower " " true false alice_logged_in =
      (Ok tt, set_agent_calls 1 alice_logged_in,
       [AgentRun "Solve this math problem:  "; StWrite "### Response:";
        StSuccess "echo: Solve this math problem:  "]).
Proof. split; vm_compute; reflexivity. Qed.

(** C2 fails on the script: with a password of 73 bytes, which bcrypt
    refuses, a login under a name that is not in the table shows "Invalid
    username or password", while a login under a registered name is cut
    short by [ValueError] and Streamlit shows the exception.  The two
    outcomes tell whether the account exists. *)
Theorem login_long_password_reveals_account :
  find_user "bob" (users alice_registered) = None
  ∧ find_user "alice" (users alice_registered) = Some alice_row
  ∧ List.length (encode_utf8 long_password) = 73%nat
  ∧ streamlit_run (login_user demo_checkpw "bob" long_password true)
      alice_registered =
      (alice_registered,
       [DbQuery "bob"; StError "Invalid username or password"])
  ∧ streamlit_run (login_user demo_checkpw "alice" long_password true)
      alice_registered =
      (alice_registered,
       [DbQuery "alice";
        BcryptCheckpw (encode_utf8 long_password) (User.password alice_row);
        StException ValueError]).
Proof. repeat split; vm_compute; reflexivity. Qed.

(** ** The examples of the specification *)

Example alice_registers :
  app demo_gensalt demo_hashpw demo_checkpw echo_agent ascii_lower
    alice_register_form (initial_world 7) =
    (Ok tt, alice_registered,
     [DbQuery "alice"; BcryptGensalt;
      BcryptHashpw (encode_utf8 "secret") (demo_gensalt 7).1;
      DbCommit alice_row;
      StSuccess "Registration successful! Please log in."]).
Proof. vm_compute; reflexivity. Qed.

Example alice_logs_in :
  app demo_gensalt demo_hashpw demo_checkpw echo_agent ascii_lower
    alice_login_form alice_registered =
    (Ok tt, alice_logged_in,
     [DbQuery "alice";
      BcryptCheckpw (encode_utf8 "secret") (User.password alice_row);
      StSuccess "Login successful!"]).
Proof. vm_compute; reflexivity. Qed.

Example nouser_login :
  login_user demo_checkpw "nouser" "anything" true alice_registered =
    (Ok tt, alice_registered,
     [DbQuery "nouser"; StError "Invalid username or password"]).
Proof. reflexivity. Qed.

Example route_math :
  agent_prompts
    (events (assistant_interface echo_agent ascii_lower "solve 2x+3=7"
               true false) alice_logged_in) =
    ["Solve this math problem: solve 2x+3=7"].
Proof. vm_compute; reflexivity. Qed.

Example route_code_uppercase :
  agent_prompts
    (events (assistant_interface echo_agent ascii_lower "A Python SCRIPT"
               true false) alice_logged_in) =
    ["Generate code for the following task: A Python SCRIPT"].
Proof. vm_compute; reflexivity. Qed.

(** ** The further properties at concrete inputs *)

Lemma register_leaves_other_users_witness :
  "bob" ≠ "alice"
  ∧ find_user "alice"
      (users (exec (register_user demo_gensalt demo_hashpw
                      "bob" "hunter2" "hunter2" true) alice_registered)) =
      find_user "alice" (users alice_registered).
Proof.
  split; [discriminate |].
  apply (register_leaves_other_users demo_gensalt demo_hashpw demo_checkpw
           alice_registered "bob" "hunter2" "hunter2" true
           "alice" "secret" true).
  discriminate.
Defined.

Lemma stored_row_permanent_witness :
  find_user "alice" (users alice_registered) = Some alice_row
  ∧ find_user "alice"
      (users (run_all demo_gensalt demo_hashpw demo_checkpw echo_agent
                ascii_lower [Rerun alice_register_form; NewSession]
                alice_registered)) = Some alice_row.
Proof.
  split; [reflexivity |].
  apply (stored_row_permanent demo_gensalt demo_hashpw demo_checkpw
           echo_agent ascii_lower [Rerun alice_register_form; NewSession]
           alice_registered "alice" alice_row).
  reflexivity.
Defined.

Lemma credentials_keep_working_witness :
  find_user "alice" (users (fresh_session 7)) = None
  ∧ displayed
      (events (login_user demo_checkpw "alice" "secret" true)
         (run_all demo_gensalt demo_hashpw demo_checkpw echo_agent
            ascii_lower [NewSession; Rerun alice_register_form]
            (exec (register_user demo_gensalt demo_hashpw
                     "alice" "secret" "secret" true) (fresh_session 7)))) =
      [StSuccess "Login successful!"].
Proof.
  split; [reflexivity |].
  apply (credentials_keep_working demo_gensalt demo_hashpw demo_checkpw
           echo_agent ascii_lower [NewSession; Rerun alice_register_form]
           (fresh_session 7) "alice" "secret" (User.password alice_row)
           demo_bcrypt_sound).
  - reflexivity.
  - reflexivity.
Defined.

Lemma authenticated_user_registered_witness :
  authenticated
    (run_all demo_gensalt demo_hashpw demo_checkpw echo_agent ascii_lower
       [Rerun alice_register_form; Rerun alice_login_form]
       (initial_world 7)) = true
  ∧ ∃ name r,
      session_state
        (run_all demo_gensalt demo_hashpw demo_checkpw echo_agent ascii_lower
           [Rerun alice_register_form; Rerun alice_login_form]
           (initial_world 7)) !! "username" = Some (VStr name)
      ∧ find_user name
          (users
             (run_all demo_gensalt demo_hashpw demo_checkpw echo_agent
                ascii_lower
                [Rerun alice_register_form; Rerun alice_login_form]
                (initial_world 7))) = Some r.
Proof.
  split; [vm_compute; reflexivity |].
  apply (authenticated_user_registered demo_gensalt demo_hashpw demo_checkpw
           echo_agent ascii_lower 7
           [Rerun alice_register_form; Rerun alice_login_form]).
  vm_compute; reflexivity.
Defined.

Lemma logged_in_session_stays_witness :
  authenticated alice_logged_in = true
  ∧ session_state
      (exec (app demo_gensalt demo_hashpw demo_checkpw echo_agent ascii_lower
               alice_query_form) alice_logged_in) =
      session_state alice_logged_in.
Proof.
  split; [vm_compute; reflexivity |].
  apply (logged_in_session_stays demo_gensalt demo_hashpw demo_checkpw
           echo_agent ascii_lower alice_logged_in alice_query_form).
  vm_compute; reflexivity.
Defined.

Lemma unauthenticated_never_reaches_agent_witness :
  authenticated alice_registered = false
  ∧ agent_prompts
      (events (app demo_gensalt demo_hashpw demo_checkpw echo_agent
                 ascii_lower alice_query_form) alice_registered) = [].
Proof.
  split; [vm_compute; reflexivity |].
  apply (unauthenticated_never_reaches_agent demo_gensalt demo_hashpw
           demo_checkpw echo_agent ascii_lower alice_registered
           alice_query_form).
  vm_compute; reflexivity.
Defined.

Lemma answer_displayed_verbatim_witness :
  "solve 2x+3=7" ≠ ""
  ∧ session_state alice_logged_in !! "username" = Some (VStr "alice")
  ∧ echo_agent (agent_calls alice_logged_in)
      (forwarded_prompt ascii_lower "solve 2x+3=7") =
      Answer "echo: Solve this math problem: solve 2x+3=7"
  ∧ assistant_interface echo_agent ascii_lower "solve 2x+3=7" true true
      alice_logged_in =
      (Ok tt, set_agent_calls 1 alice_logged_in,
       [AgentRun (forwarded_prompt ascii_lower "solve 2x+3=7");
        StWrite "### Response:";
        StSuccess "echo: Solve this math problem: solve 2x+3=7"]
       ++ veriface_events true).
Proof.
  split; [discriminate |]. split; [vm_compute; reflexivity |].
  split; [reflexivity |].
  apply (answer_displayed_verbatim echo_agent ascii_lower alice_logged_in
           "solve 2x+3=7" (VStr "alice") true
           "echo: Solve this math problem: solve 2x+3=7").
  - discriminate.
  - vm_compute; reflexivity.
  - reflexivity.
Defined.

Lemma register_login_ask_witness :
  session_state (fresh_session 7) !! "logged_in" = Some (VBool false)
  ∧ find_user (username_in alice_register_form) (users (fresh_session 7)) =
      None
  ∧ query_in alice_query_form ≠ ""
  ∧ agent_prompts
      (events
         (app demo_gensalt demo_hashpw demo_checkpw echo_agent ascii_lower
            alice_query_form)
         (exec
            (app demo_gensalt demo_hashpw demo_checkpw echo_agent
               ascii_lower alice_login_form)
            (exec
               (app demo_gensalt demo_hashpw demo_checkpw echo_agent
                  ascii_lower alice_register_form)
               (fresh_session 7)))) =
      [forwarded_prompt ascii_lower (query_in alice_query_form)].
Proof.
  split; [vm_compute; reflexivity |]. split; [reflexivity |].
  split; [discriminate |].
  apply (register_login_ask demo_gensalt demo_hashpw demo_checkpw echo_agent
           ascii_lower (fresh_session 7) alice_register_form alice_login_form
           alice_query_form (User.password alice_row) demo_bcrypt_sound).
  - vm_compute; reflexivity.
  - reflexivity.
  - reflexivity.
  - reflexivity.
  - reflexivity.
  - reflexivity.
  - reflexivity.
  - reflexivity.
  - reflexivity.
  - reflexivity.
  - reflexivity.
  - discriminate.
Defined.

Lemma missing_username_raises_witness :
  authenticated orphan_session = true
  ∧ session_state orphan_session !! "username" = None
  ∧ app demo_gensalt demo_hashpw demo_checkpw echo_agent ascii_lower
      alice_query_form orphan_session =
      (Raise (KeyError "username"), orphan_session, []).
Proof.
  split; [vm_compute; reflexivity |]. split; [vm_compute; reflexivity |].
  apply (missing_username_raises demo_gensalt demo_hashpw demo_checkpw
           echo_agent ascii_lower orphan_session alice_query_form).
  - vm_compute; reflexivity.
  - vm_compute; reflexivity.
Defined.
